(** * Serialization.hpp: the byte-order aware (de)serialization interface

    A shallow embedding of namespace [Serialization].  The header holds one
    function template with a body, the span-based [serialize] for a single
    value, and seven declarations without a body.  The function with a body
    is embedded from its text.  The declared-only overloads are modelled
    from the specification and are marked as such; where they serialize a
    value they do so through the [serialize] of the header. *)

From Stdlib Require Import ZArith List Bool Lia.
From coqutil Require Import Byte Word.LittleEndianList.
Import ListNotations.

Local Open Scope Z_scope.

(** ** C++ types and the two type traits of the static_assert *)

(** The types a template argument [T] can be instantiated with.  Widths are
    in bytes; [TEnum] carries the width of its underlying type. *)
Inductive ctype : Type :=
  | TBool
  | TInt (is_signed : bool) (width : nat)
  | TFloat (width : nat)
  | TEnum (underlying_width : nat)
  | TPointer
  | TClass (size : nat).

(** [std::is_arithmetic_v<T>]: integral (bool included) or floating point. *)
Definition is_arithmetic_v (T : ctype) : bool :=
  match T with
  | TBool | TInt _ _ | TFloat _ => true
  | TEnum _ | TPointer | TClass _ => false
  end.

(** [std::is_enum_v<T>]. *)
Definition is_enum_v (T : ctype) : bool :=
  match T with
  | TEnum _ => true
  | _ => false
  end.

(** [sizeof(T)] in bytes. *)
Definition sizeof (T : ctype) : nat :=
  match T with
  | TBool => 1
  | TInt _ w => w
  | TFloat w => w
  | TEnum w => w
  | TPointer => 8
  | TClass n => n
  end.

Definition uint8_t : ctype := TInt false 1.
Definition uint16_t : ctype := TInt false 2.
Definition uint32_t : ctype := TInt false 4.
Definition uint64_t : ctype := TInt false 8.

(** [std::endian], restricted to its two byte orders. *)
Inductive endian : Type := little | big.

Definition endian_eqb (a b : endian) : bool :=
  match a, b with
  | little, little | big, big => true
  | _, _ => false
  end.

(** ** Buffers and views *)

(** The storage a view refers to. *)
Definition memory : Type := list byte.

(** [std::span<std::byte>]: a window of [len] bytes starting [off] bytes into
    the storage.  A span does not own the bytes, so two spans over the same
    storage alias. *)
Record span : Type := mkspan { off : nat; len : nat }.

(** [n] bytes of the storage from offset [o]. *)
Definition load (m : memory) (o n : nat) : list byte :=
  firstn n (skipn o m).

(** The bytes a view shows. *)
Definition view_bytes (m : memory) (s : span) : list byte :=
  load m (off s) (len s).

(** [buffer.subspan(k)]: the view without its first [k] bytes. *)
Definition subspan (s : span) (k : nat) : span :=
  mkspan (off s + k) (len s - k).

(** ** Results of instantiating and calling a function template *)

(** What [auto] deduces as the return type and the value returned: [Void]
    when the body has no return statement, a view otherwise. *)
Inductive deduced : Type :=
  | Void
  | View (s : span).

(** [IllFormed]: the instantiation is rejected by the compiler.
    [Undefined]: the call is outside its contract.
    [Done a]: the call returns normally with [a]. *)
Inductive outcome (A : Type) : Type :=
  | IllFormed
  | Undefined
  | Done (a : A).

Arguments IllFormed {A}.
Arguments Undefined {A}.
Arguments Done {A} a.

Definition bind {A B : Type} (x : outcome A) (k : A -> outcome B) : outcome B :=
  match x with
  | IllFormed => IllFormed
  | Undefined => Undefined
  | Done a => k a
  end.

Notation "x <- c ;; k" := (bind c (fun x => k))
  (at level 61, c at next level, right associativity).
Notation "' p <- c ;; k" := (bind c (fun x => match x with p => k end))
  (at level 61, p pattern, c at next level, right associativity).

(** ** The function defined in the header *)

(** [template <typename T, size_t _extent>
     auto serialize(std::span<std::byte, _extent> buffer, const T &inValue,
                    std::endian targetEndian) noexcept]

    The body is the single statement
    [static_assert(std::is_arithmetic_v<T> || std::is_enum_v<T>);]
    so an instantiation with any other [T] is ill-formed, and a well-formed
    one touches neither [buffer] nor [inValue], has no return statement and
    returns the storage as it found it.  [inValue] is the object
    representation of the value read as an unsigned number. *)
Definition serialize (T : ctype) (buffer : span) (inValue : Z)
    (targetEndian : endian) (m : memory) : outcome (memory * deduced) :=
  if is_arithmetic_v T || is_enum_v T then Done (m, Void) else IllFormed.

(** ** The declared-only overloads *)

(** The types the Primitive Codec covers. *)
Definition primitive (T : ctype) : bool := is_arithmetic_v T || is_enum_v T.

Section Platform.

(** [std::endian::native]. *)
Variable native : endian.

(** Modelled from the spec: the value whose object representation is [bs]
    on the platform (glossary, byte order: little-endian is
    least-significant byte first, big-endian most-significant byte first);
    the header relies on the platform for it and has no code of its own. *)
Definition object_value (bs : list byte) : Z :=
  match native with
  | little => le_combine bs
  | big => le_combine (rev bs)
  end.

(** Modelled from the spec: the byte swap of section 4.1, applied when the
    requested order differs from the native one; the header has no code
    for it. *)
Definition swap_unless_native (order : endian) (bs : list byte) : list byte :=
  if endian_eqb order native then bs else rev bs.

(** Modelled from the spec: the span-based [deserialize] into a target by
    reference, declared in the header without a body.  Section 4.1: it
    reads the first [sizeof(T)] bytes of the view, swaps them when the
    source order is not the native one, stores the value into the target
    and returns the rest of the view.  The first component of the result
    is the new content of [resultValue]; the storage is read only. *)
Definition deserialize (T : ctype) (buffer : span) (sourceEndian : endian)
    (m : memory) : outcome (Z * deduced) :=
  if primitive T then
    if (len buffer <? sizeof T)%nat then Undefined
    else Done (object_value
                 (swap_unless_native sourceEndian (load m (off buffer) (sizeof T))),
               View (subspan buffer (sizeof T)))
  else IllFormed.



End Platform.


(** ** Groups *)

(** A value of a group together with its type. *)
Definition arg : Type := (ctype * Z)%type.

Section Threading.

(** The per-value operations a group is built from. *)
Variable ser : ctype -> span -> Z -> endian -> memory -> outcome (memory * deduced).
Variable deser : ctype -> span -> endian -> memory -> outcome (Z * deduced).

(** Modelled from the spec: the group [serialize], declared in the header
    without a body.  Section 4.4: each value is serialized in argument
    order, the remainder of one step is the view of the next, and the
    remainder after the last value is returned.  A step that returns no
    view leaves nothing to pass on, so the instantiation is ill-formed. *)
Fixpoint pack (buffer : span) (targetEndian : endian) (args : list arg)
    (m : memory) : outcome (memory * deduced) :=
  match args with
  | [] => Done (m, View buffer)
  | (T, v) :: rest =>
      '(m', r) <- ser T buffer v targetEndian m ;;
      match r with
      | View buffer' => pack buffer' targetEndian rest m'
      | Void => IllFormed
      end
  end.

(** Modelled from the spec: the group [deserialize], declared in the header
    without a body.  Section 4.4: the inverse of the group [serialize] in
    the same left-to-right order, writing into each target by reference;
    the list in the result holds the new contents of the targets. *)
Fixpoint unpack (buffer : span) (sourceEndian : endian) (targets : list ctype)
    (m : memory) : outcome (list Z * deduced) :=
  match targets with
  | [] => Done ([], View buffer)
  | T :: rest =>
      '(v, r) <- deser T buffer sourceEndian m ;;
      match r with
      | View buffer' =>
          '(vs, r') <- unpack buffer' sourceEndian rest m ;;
          Done (v :: vs, r')
      | Void => IllFormed
      end
  end.

End Threading.

(** Modelled from the spec: the group [serialize] of the header (declared
    without a body), each step being the span-based [serialize] of the
    header. *)
Definition serialize_group : span -> endian -> list arg -> memory ->
    outcome (memory * deduced) :=
  pack serialize.

(** Modelled from the spec: the group [deserialize] of the header (declared
    without a body) on targets of primitive types, each step being the
    per-value [deserialize] of section 4.1. *)
Definition deserialize_group (native : endian) :=
  unpack (deserialize native).

(** A value fits its type: its object representation has [sizeof(T)] bytes. *)
Definition representable (T : ctype) (v : Z) : Prop :=
  0 <= v < 2 ^ (Z.of_nat (sizeof T) * 8).

Definition zeros (n : nat) : memory := repeat Byte.x00 n.

(** ** The [serialize] of the header *)

(** The result depends on the type alone: not on the value, the byte order
    or the view. *)
Lemma serialize_ignores_value (T : ctype) (b b' : span) (v w : Z)
    (e e' : endian) (m : memory) :
  serialize T b v e m = serialize T b' w e' m.
Proof. reflexivity. Qed.

Lemma serialize_never_returns_view (T : ctype) (b rest : span) (v : Z)
    (e : endian) (m m' : memory) :
  serialize T b v e m <> Done (m', View rest).
Proof.
  unfold serialize. destruct (is_arithmetic_v T || is_enum_v T); congruence.
Qed.

(** No reader of the storage gets every value back after [serialize]. *)
Lemma serialize_not_invertible (reader : memory -> Z) (T : ctype) (b : span)
    (e : endian) (m : memory) :
  primitive T = true -> (0 < sizeof T)%nat ->
  exists v m' r,
    representable T v /\ serialize T b v e m = Done (m', r) /\ reader m' <> v.
Proof.
  intros HT Hk. unfold primitive in HT.
  assert (Hone : representable T 1).
  { unfold representable. split; [lia|].
    apply Z.pow_gt_1; lia. }
  assert (Hzero : representable T 0).
  { unfold representable. split; [lia|]. apply Z.pow_pos_nonneg; lia. }
  destruct (Z.eq_dec (reader m) 0) as [H0 | H0].
  - exists 1, m, Void. unfold serialize. rewrite HT.
    split; [exact Hone | split; [reflexivity | lia]].
  - exists 0, m, Void. unfold serialize. rewrite HT.
    split; [exact Hzero | split; [reflexivity | lia]].
Qed.

(** A group built on the [serialize] of the header has no remainder to pass
    from its first value to the next. *)
Lemma pack_over_header_serialize (buffer : span) (e : endian) (a : arg)
    (args : list arg) (m : memory) :
  serialize_group buffer e (a :: args) m = IllFormed.
Proof.
  unfold serialize_group. destruct a as [T v]. cbn [pack]. unfold serialize.
  destruct (is_arithmetic_v T || is_enum_v T); reflexivity.
Qed.

(** ** Claims about the [serialize] of the header *)

(** C10: for every arithmetic or enumeration type, every value, byte order,
    view and storage, the span-based [serialize] of the header returns the
    storage with every byte as it was and returns no remainder view: its
    deduced return type is void and it performs no write. *)
Theorem serialize_leaves_buffer_unchanged (T : ctype) (buffer : span)
    (inValue : Z) (targetEndian : endian) (m : memory) :
  is_arithmetic_v T || is_enum_v T = true ->
  serialize T buffer inValue targetEndian m = Done (m, Void).
Proof.
  intros HT. unfold serialize. rewrite HT. reflexivity.
Qed.

Lemma serialize_leaves_buffer_unchanged_witness :
  is_arithmetic_v uint32_t || is_enum_v uint32_t = true
  /\ serialize uint32_t (mkspan 0 4) 0x01020304 big
       [Byte.xde; Byte.xad; Byte.xbe; Byte.xef]
     = Done ([Byte.xde; Byte.xad; Byte.xbe; Byte.xef], Void).
Proof.
  split; [reflexivity|].
  apply (serialize_leaves_buffer_unchanged uint32_t (mkspan 0 4) 0x01020304 big
           [Byte.xde; Byte.xad; Byte.xbe; Byte.xef]).
  reflexivity.
Defined.

(** C8: for every type that is neither arithmetic nor an enumeration, the
    instantiation of the primitive [serialize] is rejected at compile time by
    the static_assert, whatever the view, value, byte order and storage: it
    neither writes nor reaches a run-time outcome. *)
Theorem serialize_rejects_other_types (T : ctype) (buffer : span)
    (inValue : Z) (targetEndian : endian) (m : memory) :
  is_arithmetic_v T = false -> is_enum_v T = false ->
  serialize T buffer inValue targetEndian m = IllFormed.
Proof.
  intros Ha He. unfold serialize. rewrite Ha, He. reflexivity.
Qed.

Lemma serialize_rejects_other_types_witness :
  is_arithmetic_v (TClass 8) = false /\ is_enum_v (TClass 8) = false
  /\ serialize (TClass 8) (mkspan 0 8) 42 little (zeros 8) = IllFormed.
Proof.
  split; [reflexivity|]. split; [reflexivity|].
  apply (serialize_rejects_other_types (TClass 8) (mkspan 0 8) 42 little (zeros 8));
    reflexivity.
Defined.

(** The [deserialize] of section 4.1 at the example of the specification:
    [04 03 02 01] read little-endian and [01 02 03 04] read big-endian give
    0x01020304 on either platform, and the remainder is empty. *)
Lemma deserialize_u32_example (native : endian) :
  deserialize native uint32_t (mkspan 0 4) little
    [Byte.x04; Byte.x03; Byte.x02; Byte.x01]
  = Done (0x01020304, View (mkspan 4 0))
  /\ deserialize native uint32_t (mkspan 0 4) big
       [Byte.x01; Byte.x02; Byte.x03; Byte.x04]
     = Done (0x01020304, View (mkspan 4 0)).
Proof.
  destruct native; split; reflexivity.
Qed.

(** A zeroed buffer reads as the value 0. *)
Lemma deserialize_u32_zeroed_buffer (native : endian) :
  deserialize native uint32_t (mkspan 0 4) little (zeros 4)
  = Done (0, View (mkspan 4 0)).
Proof.
  destruct native; reflexivity.
Qed.

(** C1, at the example of the specification: the [serialize] of the header,
    given the 32-bit value 0x01020304 and a zeroed 4-byte buffer, leaves the
    four bytes zero for either byte order and returns no view; the buffer
    holds neither [04 03 02 01] nor [01 02 03 04]. *)
Theorem serialize_u32_example_writes_nothing :
  exists m_le m_be,
    serialize uint32_t (mkspan 0 4) 0x01020304 little (zeros 4)
    = Done (m_le, Void)
    /\ serialize uint32_t (mkspan 0 4) 0x01020304 big (zeros 4)
       = Done (m_be, Void)
    /\ view_bytes m_le (mkspan 0 4) = [Byte.x00; Byte.x00; Byte.x00; Byte.x00]
    /\ view_bytes m_be (mkspan 0 4) = [Byte.x00; Byte.x00; Byte.x00; Byte.x00]
    /\ view_bytes m_le (mkspan 0 4) <> [Byte.x04; Byte.x03; Byte.x02; Byte.x01]
    /\ view_bytes m_be (mkspan 0 4) <> [Byte.x01; Byte.x02; Byte.x03; Byte.x04].
Proof.
  exists (zeros 4), (zeros 4).
  repeat split; try reflexivity; cbn; discriminate.
Qed.

(** C2, at a failing input: the [serialize] of the header leaves a zeroed
    4-byte buffer as it is and returns no view, for the value 0x01020304 as
    for the value 0, little-endian; so no [deserialize], however it reads the
    buffer, gives back both values. *)
Theorem roundtrip_through_header_serialize_loses_value :
  serialize uint32_t (mkspan 0 4) 0x01020304 little (zeros 4)
  = Done (zeros 4, Void)
  /\ serialize uint32_t (mkspan 0 4) 0 little (zeros 4) = Done (zeros 4, Void)
  /\ (forall (deser : ctype -> span -> endian -> memory -> outcome (Z * deduced))
             (r r' : deduced),
        ~ (deser uint32_t (mkspan 0 4) little (zeros 4) = Done (0x01020304, r)
           /\ deser uint32_t (mkspan 0 4) little (zeros 4) = Done (0, r'))).
Proof.
  split; [reflexivity|]. split; [reflexivity|].
  intros deser r r' [H1 H2]. rewrite H1 in H2. discriminate.
Qed.

(** C3, at a failing input: with the 16-bit value 0x0102 and a buffer that
    holds [aa bb], the [serialize] of the header leaves [aa bb] in the buffer
    for the little-endian and for the big-endian order alike, and [aa bb] is
    not its own reverse. *)
Theorem serialize_u16_orders_not_reversed :
  exists m_le m_be,
    serialize uint16_t (mkspan 0 2) 0x0102 little [Byte.xaa; Byte.xbb]
    = Done (m_le, Void)
    /\ serialize uint16_t (mkspan 0 2) 0x0102 big [Byte.xaa; Byte.xbb]
       = Done (m_be, Void)
    /\ view_bytes m_le (mkspan 0 2) = [Byte.xaa; Byte.xbb]
    /\ view_bytes m_be (mkspan 0 2) = [Byte.xaa; Byte.xbb]
    /\ view_bytes m_le (mkspan 0 2) <> rev (view_bytes m_be (mkspan 0 2)).
Proof.
  exists [Byte.xaa; Byte.xbb], [Byte.xaa; Byte.xbb].
  repeat split; try reflexivity. cbn. discriminate.
Qed.

(** C4, at a failing input: with a one-byte value (k = 1) and a view of two
    bytes (n = 2), the [serialize] of the header returns void; no view of
    length n - k = 1, nor any other view, is returned. *)
Theorem serialize_u8_returns_no_remainder :
  serialize uint8_t (mkspan 0 2) 1 little (zeros 2) = Done (zeros 2, Void)
  /\ forall m' rest,
       serialize uint8_t (mkspan 0 2) 1 little (zeros 2) <> Done (m', View rest).
Proof.
  split; [reflexivity|]. intros m' rest. apply serialize_never_returns_view.
Qed.

(** ** Claims about the declared-only overloads *)






(** ** Further properties of the [serialize] of the header *)

(** X1: whatever is computed from the result of [serialize] (the storage it
    leaves and what it returns), for every type, view, byte order and
    storage, of two different values at most one is recovered: the result
    carries nothing of [inValue]. *)
Theorem serialize_result_forgets_value
    (reader : outcome (memory * deduced) -> Z) (T : ctype) (buffer : span)
    (targetEndian : endian) (m : memory) (v w : Z) :
  v <> w ->
  reader (serialize T buffer v targetEndian m) <> v
  \/ reader (serialize T buffer w targetEndian m) <> w.
Proof.
  intros Hvw.
  destruct (Z.eq_dec (reader (serialize T buffer v targetEndian m)) v) as [Hv | Hv].
  - right.
    rewrite (serialize_ignores_value T buffer buffer w v targetEndian targetEndian m).
    rewrite Hv. exact Hvw.
  - left. exact Hv.
Qed.

Lemma serialize_result_forgets_value_witness :
  0x01020304 <> 0
  /\ ((fun r => match r with Done (m', _) => le_combine m' | _ => 0 end)
        (serialize uint32_t (mkspan 0 4) 0x01020304 little (zeros 4))
      <> 0x01020304
      \/ (fun r => match r with Done (m', _) => le_combine m' | _ => 0 end)
           (serialize uint32_t (mkspan 0 4) 0 little (zeros 4))
         <> 0).
Proof.
  split; [discriminate|].
  apply (serialize_result_forgets_value
           (fun r => match r with Done (m', _) => le_combine m' | _ => 0 end)
           uint32_t (mkspan 0 4) little (zeros 4) 0x01020304 0).
  discriminate.
Defined.

(** X2: any sequence of calls of [serialize], each with its own type, view,
    value and byte order on the same storage, leaves the storage byte for
    byte as it was and returns void when every type is arithmetic or an
    enumeration, and is ill-formed as soon as one type is not. *)
Theorem serialize_calls_leave_storage
    (calls : list (ctype * span * Z * endian)) (m : memory) :
  fold_left
    (fun acc c =>
       let '(T, buffer, v, e) := c in
       '(m', _) <- acc ;; serialize T buffer v e m')
    calls (Done (m, Void))
  = if forallb
         (fun c => let '(T, _, _, _) := c in is_arithmetic_v T || is_enum_v T)
         calls
    then Done (m, Void) else IllFormed.
Proof.
  induction calls as [|[[[T buffer] v] e] rest IH]; cbn [fold_left forallb].
  - reflexivity.
  - cbn [bind]. unfold serialize at 2.
    destruct (is_arithmetic_v T || is_enum_v T); cbn [andb].
    + exact IH.
    + clear IH. induction rest as [|[[[T' b'] v'] e'] rest IH]; cbn [fold_left bind].
      * reflexivity.
      * exact IH.
Qed.
